(** * Jakarta AQI forecast dashboard: the scenario-to-forecast pipeline

    Shallow embedding of the prediction logic of [src/app.py] (the
    [if st.button("Predict Future AQI")] block and the map colour of each
    forecast value).  Python and numpy floats are modelled as exact
    rationals [Q]; the slider values are Python [int]s, modelled as [Z].
    The trained regressor, loaded from a pickle, is a parameter: any total
    function from a feature row to an AQI value. *)

From Stdlib Require Import QArith ZArith List String Bool Lia Lqa.
Import ListNotations.

Open Scope Q_scope.

(** ** Data model *)

(** One row of the feature frame, columns in the order of
    [sub[["pm25", "pm10", "so2", "co", "o3", "no2"]]]. *)
Record features := mkFeatures {
  pm25 : Q; pm10 : Q; so2 : Q; co : Q; o3 : Q; no2 : Q
}.

(** A row of [cleaned_jakarta_aqi.csv]: the station ([stasiun]) and its
    six pollutant readings. *)
Record reading := mkReading {
  stasiun_of : string;
  values_of : features
}.

(** The four slider values [ev_switch], [emission_reg], [green_area],
    [carbon_capture]. *)
Record scenario := mkScenario {
  ev_switch : Z; emission_reg : Z; green_area : Z; carbon_capture : Z
}.

(** One entry of [results]. *)
Record station_result := mkResult {
  stasiun : string;
  latitude : Q;
  longitude : Q;
  avg_aqi : Q;
  predictions : list Q
}.

(** Columns of [X_future]. *)
Inductive column := Cpm25 | Cpm10 | Cso2 | Cco | Co3 | Cno2.

Definition get_col (c : column) (f : features) : Q :=
  match c with
  | Cpm25 => pm25 f | Cpm10 => pm10 f | Cso2 => so2 f
  | Cco => co f | Co3 => o3 f | Cno2 => no2 f
  end.

Definition set_col (c : column) (v : Q) (f : features) : features :=
  match c with
  | Cpm25 => mkFeatures v (pm10 f) (so2 f) (co f) (o3 f) (no2 f)
  | Cpm10 => mkFeatures (pm25 f) v (so2 f) (co f) (o3 f) (no2 f)
  | Cso2 => mkFeatures (pm25 f) (pm10 f) v (co f) (o3 f) (no2 f)
  | Cco => mkFeatures (pm25 f) (pm10 f) (so2 f) v (o3 f) (no2 f)
  | Co3 => mkFeatures (pm25 f) (pm10 f) (so2 f) (co f) v (no2 f)
  | Cno2 => mkFeatures (pm25 f) (pm10 f) (so2 f) (co f) (o3 f) v
  end.

(** [X_future[c] *= m]: in-place column scaling of a data frame. *)
Definition scale_col (c : column) (m : Q) (X : list features) : list features :=
  map (fun r => set_col c (get_col c r * m) r) X.

(** ** Feature projection (lines 71-82) *)

(** [np.arange(2025, 2031)] *)
Definition future_years : list Z := map Z.of_nat (seq 2025 6).

(** The six scenario multipliers, written as in the source:
    [1 - (a + b) / N] with Python true division. *)
Definition mult_pm25 (s : scenario) : Q :=
  1 - inject_Z (ev_switch s + emission_reg s) / 200.
Definition mult_pm10 (s : scenario) : Q :=
  1 - inject_Z (green_area s + emission_reg s) / 220.
Definition mult_co (s : scenario) : Q :=
  1 - inject_Z (carbon_capture s + ev_switch s) / 250.
Definition mult_no2 (s : scenario) : Q :=
  1 - inject_Z (emission_reg s + ev_switch s) / 180.
Definition mult_so2 (s : scenario) : Q :=
  1 - inject_Z (carbon_capture s + emission_reg s) / 230.
Definition mult_o3 (s : scenario) : Q :=
  1 - inject_Z (green_area s) / 200.

(** Column-wise sum of the frame, divided by the row count: pandas' [mean()]. *)
Definition sum_features (rows : list features) : features :=
  fold_right (fun r acc =>
      mkFeatures (pm25 r + pm25 acc) (pm10 r + pm10 acc) (so2 r + so2 acc)
                 (co r + co acc) (o3 r + o3 acc) (no2 r + no2 acc))
    (mkFeatures 0 0 0 0 0 0) rows.

Definition mean_features (rows : list features) : features :=
  let s := sum_features rows in
  let n := inject_Z (Z.of_nat (List.length rows)) in
  mkFeatures (pm25 s / n) (pm10 s / n) (so2 s / n) (co s / n) (o3 s / n) (no2 s / n).

(** [pd.DataFrame([mean_features.values] * len(future_years))] followed by
    the six in-place column scalings, in the order of the source. *)
Definition X_future (s : scenario) (mean : features) : list features :=
  let X := repeat mean (List.length future_years) in
  let X := scale_col Cpm25 (mult_pm25 s) X in
  let X := scale_col Cpm10 (mult_pm10 s) X in
  let X := scale_col Cco (mult_co s) X in
  let X := scale_col Cno2 (mult_no2 s) X in
  let X := scale_col Cso2 (mult_so2 s) X in
  scale_col Co3 (mult_o3 s) X.

(** ** Forecast engine (lines 84-97) *)

(** [np.linspace(start, stop, num)] with its default [endpoint=True]:
    [arange(0, num) * step + start] with [step = (stop - start) / (num - 1)],
    and the last sample overwritten with [stop] when [num > 1]. *)
Definition linspace (start stop : Q) (num : nat) : list Q :=
  let div := (num - 1)%nat in
  let step := (stop - start) / inject_Z (Z.of_nat div) in
  let y := map (fun i => inject_Z (Z.of_nat i) * step + start) (seq 0 num) in
  if (1 <? num)%nat then firstn (num - 1) y ++ [stop] else y.

(** Element-wise product of two numpy vectors of the same length. *)
Definition vmul (xs ys : list Q) : list Q :=
  map (fun p => fst p * snd p) (combine xs ys).

(** [np.mean] *)
Definition np_mean (xs : list Q) : Q :=
  fold_right Qplus 0 xs / inject_Z (Z.of_nat (List.length xs)).

(** [adjusted_pred = base_pred * np.linspace(1, 0.85, len(base_pred))] *)
Definition adjusted_pred (base_pred : list Q) : list Q :=
  vmul base_pred (linspace 1 (85 # 100) (List.length base_pred)).

(** [station_coords] and [station_coords.get(station, (-6.2, 106.8))]. *)
Definition station_coords : list (string * (Q * Q)) :=
  [ ("DKI1 (Bunderan HI)", (-6193 # 1000, 106820 # 1000));
    ("DKI2 (Kelapa Gading)", (-6166 # 1000, 106909 # 1000));
    ("DKI3 (Jagakarsa)", (-6338 # 1000, 106823 # 1000));
    ("DKI4 (Lubang Buaya)", (-6293 # 1000, 106894 # 1000));
    ("DKI5 (Kebon Jeruk)", (-6200 # 1000, 106770 # 1000)) ]%string.

Definition coords_get (station : string) : Q * Q :=
  match find (fun e => String.eqb (fst e) station) station_coords with
  | Some (_, ll) => ll
  | None => (-62 # 10, 1068 # 10)
  end.

(** [df["stasiun"].unique()]: distinct values in order of first appearance. *)
Fixpoint unique (l : list string) : list string :=
  match l with
  | [] => []
  | x :: xs => x :: filter (fun y => negb (String.eqb x y)) (unique xs)
  end.

(** ** Risk classification (line 178) *)

Inductive marker_color := green | orange | red.

Definition Qltb (x y : Q) : bool := negb (Qle_bool y x).

(** [color = "green" if year_aqi < 50 else "orange" if year_aqi < 100 else "red"] *)
Definition classify (year_aqi : Q) : marker_color :=
  if Qltb year_aqi 50 then green
  else if Qltb year_aqi 100 then orange
  else red.

Section Prediction.

(** The trained regressor: [model.predict] applied to one feature row. *)
Variable predict : features -> Q.

(** [model.predict(X_future)]: one prediction per row. *)
Definition base_pred (X : list features) : list Q := map predict X.

(** The body of the loop for a station whose [sub] frame is non-empty. *)
Definition forecast_station (s : scenario) (station : string) (rows : list features)
  : station_result :=
  let mean := mean_features rows in
  let X := X_future s mean in
  let adj := adjusted_pred (base_pred X) in
  let ll := coords_get station in
  mkResult station (fst ll) (snd ll) (np_mean adj) adj.

(** [sub = df[df["stasiun"] == station]] *)
Definition station_rows (tbl : list reading) (station : string) : list features :=
  map values_of (filter (fun r => String.eqb (stasiun_of r) station) tbl).

(** The [for station in ...] loop: the appended results and the
    [st.warning] messages, in order. *)
Fixpoint station_loop (s : scenario) (tbl : list reading) (stations : list string)
  : list station_result * list string :=
  match stations with
  | [] => ([], [])
  | station :: rest =>
      let (res, warns) := station_loop s tbl rest in
      match station_rows tbl station with
      | [] => (res, ("No data for " ++ station ++ ". Skipping.")%string :: warns)
      | sub => (forecast_station s station sub :: res, warns)
      end
  end.

(** One press of the predict button on table [df] with the slider values [s]. *)
Definition predict_run (s : scenario) (df : list reading) : list station_result * list string :=
  station_loop s df (unique (map stasiun_of df)).

End Prediction.

(** ** Display of the results (lines 105-185) *)

(** [line_data = {row["stasiun"]: row["predictions"] for _, row in ...}]:
    a Python dict keeps the position of a key on update and appends new keys. *)
Fixpoint dict_set (k : string) (v : list Q) (d : list (string * list Q))
  : list (string * list Q) :=
  match d with
  | [] => [(k, v)]
  | (k', v') :: d' => if String.eqb k' k then (k', v) :: d' else (k', v') :: dict_set k v d'
  end.

Definition line_data (results : list station_result) : list (string * list Q) :=
  fold_left (fun d r => dict_set (stasiun r) (predictions r) d) results [].

(** [index=np.arange(2025, 2031)] *)
Definition chart_index : list Z := map Z.of_nat (seq 2025 6).

(** [pd.DataFrame(line_data, index=...)] (a column whose length differs from
    the index raises [ValueError], modelled as [None]), then
    [reset_index().melt(id_vars="index", ...)] renamed to
    [(Year, Station, AQI)]: one block of rows per column, in column order. *)
Definition line_chart_rows (results : list station_result) : option (list (Z * string * Q)) :=
  let ld := line_data results in
  if forallb (fun e => Nat.eqb (List.length (snd e)) (List.length chart_index)) ld
  then Some (flat_map (fun e => map (fun ya => (fst ya, fst e, snd ya))
                                    (combine chart_index (snd e))) ld)
  else None.

(** [years = list(range(2025, 2031))] *)
Definition years : list Z := map Z.of_nat (seq 2025 6).

(** One rerun of the year-button loop: [if st.button(f"{year}"):
    st.session_state["selected_year"] = year]; [pressed] is the button
    clicked on this rerun, if any. *)
Definition year_buttons (selected : Z) (pressed : option Z) : Z :=
  fold_left (fun sel year =>
      match pressed with
      | Some p => if Z.eqb year p then year else sel
      | None => sel
      end) years selected.

(** A sequence of reruns starting from [selected_year = 2025], the value the
    predict button stores. *)
Definition selected_after (clicks : list (option Z)) : Z :=
  fold_left year_buttons clicks 2025%Z.

(** Python list indexing [l[i]], negative indices counting from the end;
    [None] is an [IndexError]. *)
Definition py_index {A : Type} (l : list A) (i : Z) : option A :=
  if (0 <=? i)%Z then nth_error l (Z.to_nat i)
  else let j := (Z.of_nat (List.length l) + i)%Z in
       if (0 <=? j)%Z then nth_error l (Z.to_nat j) else None.

Record marker := mkMarker {
  m_lat : Q; m_lon : Q; m_station : string; m_aqi : Q; m_color : marker_color
}.

(** The map loop: [year_aqi = row["predictions"][year_index]] with
    [year_index = selected_year - 2025], and one marker per result. *)
Definition map_markers (results : list station_result) (selected_year : Z)
  : option (list marker) :=
  let year_index := (selected_year - 2025)%Z in
  fold_right (fun r acc =>
      match py_index (predictions r) year_index, acc with
      | Some year_aqi, Some ms =>
          Some (mkMarker (latitude r) (longitude r) (stasiun r) year_aqi (classify year_aqi) :: ms)
      | _, _ => None
      end) (Some []) results.

(** ** Auxiliary notions used to state the properties *)

(** The projected row as the spec's table describes it: each pollutant of
    the station mean scaled by [1 - (sum of its drivers) / normalizer].
    Used only for comparison with [X_future], which follows the source. *)
Definition spec_projected_row (s : scenario) (mean : features) : features :=
  let ev := ev_switch s in let reg := emission_reg s in
  let ga := green_area s in let cc := carbon_capture s in
  mkFeatures
    (pm25 mean * (1 - inject_Z (ev + reg) / 200))
    (pm10 mean * (1 - inject_Z (ga + reg) / 220))
    (so2 mean * (1 - inject_Z (cc + reg) / 230))
    (co mean * (1 - inject_Z (cc + ev) / 250))
    (o3 mean * (1 - inject_Z ga / 200))
    (no2 mean * (1 - inject_Z (reg + ev) / 180)).

(** The slider domain: every parameter an integer of [0, 100]. *)
Definition valid_param (z : Z) : bool := (0 <=? z)%Z && (z <=? 100)%Z.

Definition valid_scenario (s : scenario) : bool :=
  valid_param (ev_switch s) && valid_param (emission_reg s)
  && valid_param (green_area s) && valid_param (carbon_capture s).

(** [st.sidebar.slider(label, min_value, max_value, value)] returns the
    position the user chose, always within [[min_value, max_value]]; a
    requested value outside the range is not taken and the widget keeps its
    value.  [None] is a rerun without interaction. *)
Definition slider (min_value max_value value : Z) (user : option Z) : Z :=
  match user with
  | Some v => if (min_value <=? v)%Z && (v <=? max_value)%Z then v else value
  | None => value
  end.

(** Lines 53-56: the four sliders with their ranges and default values. *)
Definition sidebar_scenario (ev reg ga cc : option Z) : scenario :=
  mkScenario (slider 0 100 30 ev) (slider 0 100 40 reg)
             (slider 0 100 25 ga) (slider 0 100 20 cc).

Definition nonneg_features (f : features) : Prop :=
  0 <= pm25 f /\ 0 <= pm10 f /\ 0 <= so2 f /\ 0 <= co f /\ 0 <= o3 f /\ 0 <= no2 f.

(** Equality of two rows up to the value of each rational. *)
Definition features_eq (f g : features) : Prop :=
  pm25 f == pm25 g /\ pm10 f == pm10 g /\ so2 f == so2 g /\
  co f == co g /\ o3 f == o3 g /\ no2 f == no2 g.

Fixpoint nonincreasing (l : list Q) : Prop :=
  match l with
  | x :: ((y :: _) as t) => y <= x /\ nonincreasing t
  | _ => True
  end.

(** The damping factors [np.linspace(1, 0.85, 6)] applied by the code. *)
Definition damping : list Q := linspace 1 (85 # 100) 6.

(** Severity order of the marker colours. *)
Definition color_rank (c : marker_color) : nat :=
  match c with green => 0 | orange => 1 | red => 2 end.

(** Componentwise order of scenarios and of feature rows. *)
Definition scenario_le (s s' : scenario) : Prop :=
  (ev_switch s <= ev_switch s')%Z /\ (emission_reg s <= emission_reg s')%Z /\
  (green_area s <= green_area s')%Z /\ (carbon_capture s <= carbon_capture s')%Z.

Definition features_le (f g : features) : Prop :=
  pm25 f <= pm25 g /\ pm10 f <= pm10 g /\ so2 f <= so2 g /\
  co f <= co g /\ o3 f <= o3 g /\ no2 f <= no2 g.

(** The neutral scenario [(0, 0, 0, 0)]. *)
Definition neutral : scenario := mkScenario 0 0 0 0.

(** A concrete regressor and table, used to exercise the statements. *)
Definition toy_model (f : features) : Q := pm25 f + pm10 f.

Definition toy_table : list reading :=
  [ mkReading "DKI1 (Bunderan HI)" (mkFeatures 50 40 10 5 20 30);
    mkReading "DKI3 (Jagakarsa)" (mkFeatures 60 50 12 6 25 35);
    mkReading "DKI1 (Bunderan HI)" (mkFeatures 50 40 10 5 20 30) ]%string.

(** ** General lemmas *)

Lemma X_future_repeat (s : scenario) (mean : features) :
  X_future s mean = repeat (spec_projected_row s mean) 6.
Proof. reflexivity. Qed.

Lemma param_bounds_Q (z : Z) :
  (0 <= z <= 100)%Z -> 0 <= inject_Z z /\ inject_Z z <= 100.
Proof.
  intros [H1 H2]. split; [change 0 with (inject_Z 0) | change 100 with (inject_Z 100)];
    rewrite <- Zle_Qle; assumption.
Qed.

Lemma Qinv_pos (p : positive) : / (Zpos p # 1) = 1 # p.
Proof. reflexivity. Qed.

(** Closes linear goals over the multipliers of an in-range scenario. *)
Ltac qlin :=
  repeat rewrite inject_Z_plus in *; unfold Qdiv in *; rewrite ?Qinv_pos in *;
  repeat match goal with
  | H : (0 <= _ <= 100)%Z |- _ => apply param_bounds_Q in H; destruct H
  end;
  lra.

Lemma valid_scenario_bounds (s : scenario) :
  valid_scenario s = true ->
  (0 <= ev_switch s <= 100)%Z /\ (0 <= emission_reg s <= 100)%Z /\
  (0 <= green_area s <= 100)%Z /\ (0 <= carbon_capture s <= 100)%Z.
Proof.
  unfold valid_scenario, valid_param. rewrite !andb_true_iff, !Z.leb_le. tauto.
Qed.

Lemma slider_valid_param (v : Z) (user : option Z) :
  valid_param v = true -> valid_param (slider 0 100 v user) = true.
Proof.
  intros Hv. destruct user as [u|]; simpl; [|exact Hv].
  destruct ((0 <=? u)%Z && (u <=? 100)%Z) eqn:E; [exact E | exact Hv].
Qed.

Lemma Qltb_false_iff (x y : Q) : Qltb x y = false <-> y <= x.
Proof.
  unfold Qltb. rewrite negb_false_iff. apply Qle_bool_iff.
Qed.

Lemma Qmult_eq_1_r (x m : Q) : m == 1 -> x * m == x.
Proof. intros H. rewrite H. apply Qmult_1_r. Qed.

Lemma Qltb_iff (x y : Q) : Qltb x y = true <-> x < y.
Proof.
  unfold Qltb. rewrite negb_true_iff. split.
  - intro H. apply Qnot_le_lt. intro Hle. apply Qle_bool_iff in Hle. congruence.
  - intro H. destruct (Qle_bool y x) eqn:E; [|reflexivity].
    apply Qle_bool_iff in E. exfalso. apply (Qlt_not_le x y); assumption.
Qed.

Ltac qltb_cases x c E :=
  destruct (Qltb x c) eqn:E; [apply Qltb_iff in E | apply Qltb_false_iff in E].

Lemma unique_incl (l : list string) (x : string) : In x (unique l) -> In x l.
Proof.
  induction l as [|a l IH]; simpl; [tauto|].
  intros [H|H]; [left; exact H|].
  apply filter_In in H. right. apply IH. tauto.
Qed.

Lemma station_rows_nonempty (df : list reading) (st : string) :
  In st (map stasiun_of df) -> station_rows df st <> [].
Proof.
  intros Hin. apply in_map_iff in Hin as [r [Hr Hin]].
  unfold station_rows. intro E.
  apply map_eq_nil in E.
  assert (Hf : In r (filter (fun r => String.eqb (stasiun_of r) st) df)).
  { apply filter_In. split; [exact Hin|]. apply String.eqb_eq. exact Hr. }
  rewrite E in Hf. exact Hf.
Qed.

Section Run.
Variable predict : features -> Q.

Lemma station_loop_all_nonempty (s : scenario) (df : list reading) (stations : list string) :
  (forall st, In st stations -> station_rows df st <> []) ->
  station_loop predict s df stations =
    (map (fun st => forecast_station predict s st (station_rows df st)) stations, []).
Proof.
  induction stations as [|st rest IH]; intros Hne; simpl; [reflexivity|].
  rewrite IH by (intros; apply Hne; right; assumption).
  destruct (station_rows df st) eqn:E.
  - exfalso. apply (Hne st); [left; reflexivity | exact E].
  - reflexivity.
Qed.

Lemma predict_run_spec (s : scenario) (df : list reading) :
  predict_run predict s df =
    (map (fun st => forecast_station predict s st (station_rows df st))
         (unique (map stasiun_of df)), []).
Proof.
  unfold predict_run. apply station_loop_all_nonempty.
  intros st Hin. apply station_rows_nonempty, unique_incl, Hin.
Qed.

Lemma predict_run_result (s : scenario) (df : list reading) (r : station_result) :
  In r (fst (predict_run predict s df)) ->
  r = forecast_station predict s (stasiun r) (station_rows df (stasiun r)).
Proof.
  rewrite predict_run_spec. simpl. intros Hin.
  apply in_map_iff in Hin as [st [<- _]]. reflexivity.
Qed.

End Run.

Section RunFacts.
Variable predict : features -> Q.

Lemma predict_run_stations (s : scenario) (df : list reading) :
  map stasiun (fst (predict_run predict s df)) = unique (map stasiun_of df).
Proof.
  rewrite predict_run_spec. simpl. rewrite map_map. apply map_id.
Qed.

End RunFacts.

(** ** Feature projector *)

(** C1: every projected row scales each pollutant of the station mean by
    the multiplier of the spec's table ([1 - (drivers) / normalizer]); for
    the mean [50,40,10,5,20,30] and scenario [(30,40,25,20)] the PM2.5
    multiplier is 0.65 and the projected PM2.5 is 32.5 in all six years. *)
Theorem projection_multipliers (s : scenario) (mean : features) :
  X_future s mean = repeat (spec_projected_row s mean) (List.length future_years) /\
  (let ex := mkScenario 30 40 25 20 in
   let m := mkFeatures 50 40 10 5 20 30 in
   mult_pm25 ex == 65 # 100 /\
   List.length (X_future ex m) = 6%nat /\
   Forall (fun r => pm25 r == 65 # 2) (X_future ex m)).
Proof.
  split; [reflexivity|].
  simpl. split; [reflexivity|]. split; [reflexivity|].
  repeat constructor.
Qed.

(** C6: the six projected rows, one per forecast year, are one and the same
    row: the scaling depends on the scenario and not on the year. *)
Theorem projection_year_independent (s : scenario) (mean : features) :
  exists v, X_future s mean = repeat v (List.length future_years).
Proof. exists (spec_projected_row s mean). reflexivity. Qed.

(** C7: under the neutral scenario [(0,0,0,0)] all six multipliers equal 1
    and every projected row equals the station mean. *)
Theorem neutral_projection_identity (mean : features) :
  mult_pm25 neutral == 1 /\ mult_pm10 neutral == 1 /\ mult_co neutral == 1 /\
  mult_no2 neutral == 1 /\ mult_so2 neutral == 1 /\ mult_o3 neutral == 1 /\
  List.length (X_future neutral mean) = 6%nat /\
  Forall (fun r => features_eq r mean) (X_future neutral mean).
Proof.
  repeat split; try reflexivity.
  rewrite X_future_repeat. apply Forall_forall.
  intros r Hr. apply repeat_spec in Hr. subst r.
  unfold features_eq, spec_projected_row, neutral;
    cbn [ev_switch emission_reg green_area carbon_capture pm25 pm10 so2 co o3 no2].
  repeat split; apply Qmult_eq_1_r; reflexivity.
Qed.

(** ** Forecast engine *)

(** C3: the damping factor at year index [i] (0..5) is [1 - 0.15 * i / 5],
    the sequence is [1.0, 0.97, 0.94, 0.91, 0.88, 0.85] and non-increasing,
    and it is what multiplies the six raw predictions of every station. *)
Theorem damping_factors (predict : features -> Q) (s : scenario) (station : string) (rows : list features) :
  predictions (forecast_station predict s station rows)
    = vmul (base_pred predict (X_future s (mean_features rows))) damping /\
  Forall2 (fun i d => d == 1 - (15 # 100) * inject_Z (Z.of_nat i) / 5) (seq 0 6) damping /\
  Forall2 Qeq damping [1; 97 # 100; 94 # 100; 91 # 100; 88 # 100; 85 # 100] /\
  nonincreasing damping.
Proof.
  split; [reflexivity|].
  split; [repeat constructor|].
  split; [repeat constructor|].
  unfold damping. simpl. unfold Qle; simpl. lia.
Qed.

(** ** Risk classification *)

(** C4: the marker colour (green = LOW, orange = MODERATE, red = HIGH) is
    green exactly below 50, orange exactly on [50, 100) and red exactly from
    100 on; the boundaries 50 and 100 fall in the upper band. *)
Theorem classify_bands (x : Q) :
  (classify x = green <-> x < 50) /\
  (classify x = orange <-> 50 <= x /\ x < 100) /\
  (classify x = red <-> 100 <= x) /\
  classify (49999 # 1000) = green /\ classify 50 = orange /\
  classify (99999 # 1000) = orange /\ classify 100 = red.
Proof.
  assert (Hx : (classify x = green <-> x < 50) /\
               (classify x = orange <-> 50 <= x /\ x < 100) /\
               (classify x = red <-> 100 <= x)).
  { unfold classify.
    destruct (Qltb x 50) eqn:E1; [apply Qltb_iff in E1 | apply Qltb_false_iff in E1];
    destruct (Qltb x 100) eqn:E2; [apply Qltb_iff in E2 | apply Qltb_false_iff in E2
                                 | apply Qltb_iff in E2 | apply Qltb_false_iff in E2];
    repeat split; intros; try discriminate; try reflexivity; try lra;
    exfalso; lra. }
  destruct Hx as [H1 [H2 H3]].
  repeat split; try assumption; try reflexivity;
    try (apply H1; assumption); try (apply H2; assumption); try (apply H3; assumption);
    try (apply H2; split; assumption).
Qed.

(** C2 (as stated, refuted): with every parameter in [0, 100] and a
    non-negative station mean, the NO2 multiplier of the scenario
    [(100, 100, 0, 0)] is [1 - 200/180 = -1/9] (the source applies no clamp)
    and every projected NO2 value is negative. *)
Lemma no2_multiplier_negative :
  valid_scenario (mkScenario 100 100 0 0) = true /\
  mult_no2 (mkScenario 100 100 0 0) == -1 # 9 /\
  nonneg_features (mkFeatures 50 40 10 5 20 30) /\
  Forall (fun r => no2 r < 0) (X_future (mkScenario 100 100 0 0) (mkFeatures 50 40 10 5 20 30)).
Proof.
  split; [reflexivity|]. split; [reflexivity|].
  split; [unfold nonneg_features; simpl; repeat split; lra|].
  repeat constructor; simpl; lra.
Qed.

(** C2 (as amended): for parameters in [0, 100] the PM2.5, PM10, CO, SO2
    and O3 multipliers are non-negative; the NO2 multiplier is non-negative
    exactly when [emission_reg + ev_switch <= 180]; under that condition a
    non-negative station mean gives non-negative projected rows. *)
Theorem multipliers_nonneg_in_range (s : scenario) (mean : features) :
  valid_scenario s = true ->
  0 <= mult_pm25 s /\ 0 <= mult_pm10 s /\ 0 <= mult_co s /\
  0 <= mult_so2 s /\ 0 <= mult_o3 s /\
  (0 <= mult_no2 s <-> (emission_reg s + ev_switch s <= 180)%Z) /\
  ((emission_reg s + ev_switch s <= 180)%Z -> nonneg_features mean ->
   Forall nonneg_features (X_future s mean)).
Proof.
  intros Hv. apply valid_scenario_bounds in Hv.
  destruct s as [ev reg ga cc]; cbn [ev_switch emission_reg green_area carbon_capture] in Hv |- *.
  destruct Hv as [Hev [Hreg [Hga Hcc]]].
  unfold mult_pm25, mult_pm10, mult_co, mult_so2, mult_o3, mult_no2;
    cbn [ev_switch emission_reg green_area carbon_capture].
  split; [qlin|]. split; [qlin|]. split; [qlin|]. split; [qlin|]. split; [qlin|].
  split.
  { rewrite Zle_Qle, inject_Z_plus. change (inject_Z 180) with 180.
    split; intro; qlin. }
  intros Hs Hm. rewrite Zle_Qle in Hs. change (inject_Z 180) with 180 in Hs.
  rewrite X_future_repeat. apply Forall_forall.
  intros r Hr. apply repeat_spec in Hr. subst r.
  destruct Hm as [H1 [H2 [H3 [H4 [H5 H6]]]]].
  unfold nonneg_features, spec_projected_row;
    cbn [ev_switch emission_reg green_area carbon_capture pm25 pm10 so2 co o3 no2].
  repeat split; apply Qmult_le_0_compat; try assumption; qlin.
Qed.

Lemma multipliers_nonneg_in_range_witness :
  valid_scenario (mkScenario 30 40 25 20) = true /\
  (0 <= mult_pm25 (mkScenario 30 40 25 20) /\ 0 <= mult_pm10 (mkScenario 30 40 25 20) /\
   0 <= mult_co (mkScenario 30 40 25 20) /\ 0 <= mult_so2 (mkScenario 30 40 25 20) /\
   0 <= mult_o3 (mkScenario 30 40 25 20) /\
   (0 <= mult_no2 (mkScenario 30 40 25 20) <-> (40 + 30 <= 180)%Z) /\
   ((40 + 30 <= 180)%Z -> nonneg_features (mkFeatures 50 40 10 5 20 30) ->
    Forall nonneg_features (X_future (mkScenario 30 40 25 20) (mkFeatures 50 40 10 5 20 30)))).
Proof.
  split; [reflexivity|].
  apply (multipliers_nonneg_in_range (mkScenario 30 40 25 20) (mkFeatures 50 40 10 5 20 30)).
  reflexivity.
Defined.

(** ** Forecast run *)

(** C5: every produced station result holds six damped points, and its
    [avg_aqi] is their arithmetic mean (exactly, over the rationals). *)
Theorem avg_aqi_is_mean (predict : features -> Q) (s : scenario) (df : list reading)
    (r : station_result) :
  In r (fst (predict_run predict s df)) ->
  List.length (predictions r) = 6%nat /\
  avg_aqi r == fold_right Qplus 0 (predictions r) / 6.
Proof.
  intros Hin. apply predict_run_result in Hin. rewrite Hin.
  unfold forecast_station, adjusted_pred, base_pred, np_mean; cbn [predictions avg_aqi].
  rewrite X_future_repeat. split; reflexivity.
Qed.

Lemma avg_aqi_is_mean_witness :
  In (forecast_station toy_model (mkScenario 30 40 25 20) "DKI1 (Bunderan HI)"
        (station_rows toy_table "DKI1 (Bunderan HI)"))
     (fst (predict_run toy_model (mkScenario 30 40 25 20) toy_table)) /\
  List.length (predictions (forecast_station toy_model (mkScenario 30 40 25 20)
     "DKI1 (Bunderan HI)" (station_rows toy_table "DKI1 (Bunderan HI)"))) = 6%nat /\
  avg_aqi (forecast_station toy_model (mkScenario 30 40 25 20) "DKI1 (Bunderan HI)"
     (station_rows toy_table "DKI1 (Bunderan HI)"))
  == fold_right Qplus 0 (predictions (forecast_station toy_model (mkScenario 30 40 25 20)
     "DKI1 (Bunderan HI)" (station_rows toy_table "DKI1 (Bunderan HI)"))) / 6.
Proof.
  assert (Hin : In (forecast_station toy_model (mkScenario 30 40 25 20) "DKI1 (Bunderan HI)"
        (station_rows toy_table "DKI1 (Bunderan HI)"))
     (fst (predict_run toy_model (mkScenario 30 40 25 20) toy_table))).
  { rewrite predict_run_spec. left. reflexivity. }
  split; [exact Hin|].
  exact (avg_aqi_is_mean toy_model (mkScenario 30 40 25 20) toy_table _ Hin).
Defined.

(** C8 (code defect): the loop tests [if sub.empty] to warn
    "No data for {station}. Skipping.", but it only visits the stations of
    [df["stasiun"].unique()], each of which has at least one row, so the
    warning never fires for any table.  At the registered station [DKI2],
    which has no reading in [toy_table], the station is dropped from the
    results silently. *)
Lemma empty_station_not_signalled :
  (forall (predict : features -> Q) (s : scenario) (df : list reading),
     snd (predict_run predict s df) = []) /\
  station_rows toy_table "DKI2 (Kelapa Gading)" = [] /\
  snd (predict_run toy_model (mkScenario 30 40 25 20) toy_table) = [] /\
  ~ In "DKI2 (Kelapa Gading)"%string
      (map stasiun (fst (predict_run toy_model (mkScenario 30 40 25 20) toy_table))).
Proof.
  split; [intros predict s df; rewrite predict_run_spec; reflexivity|].
  rewrite predict_run_spec. split; [reflexivity|]. split; [reflexivity|].
  simpl. intros [H|[H|H]]; [discriminate H | discriminate H | exact H].
Qed.

(** C9: the scenario comes from the four sidebar sliders, so every
    parameter the computation can receive lies in [0, 100]; the case of a
    parameter outside [0, 100] never arises.  For every such scenario the
    run is not rejected: it returns one forecast per station of the table
    and no warning. *)
Theorem sidebar_scenario_run_accepted (predict : features -> Q) (df : list reading)
    (ev reg ga cc : option Z) :
  valid_scenario (sidebar_scenario ev reg ga cc) = true /\
  map stasiun (fst (predict_run predict (sidebar_scenario ev reg ga cc) df))
    = unique (map stasiun_of df) /\
  snd (predict_run predict (sidebar_scenario ev reg ga cc) df) = [].
Proof.
  split; [|split].
  - unfold valid_scenario, sidebar_scenario. cbn [ev_switch emission_reg green_area carbon_capture].
    rewrite !slider_valid_param by reflexivity. reflexivity.
  - apply predict_run_stations.
  - rewrite predict_run_spec. reflexivity.
Qed.

(** C10: the six raw predictions of a station are the one prediction [b] of
    its projected row; when [b] is non-negative the damped trajectory
    [b * damping] is non-increasing from 2025 to 2030. *)
Theorem damped_trajectory_nonincreasing (predict : features -> Q) (s : scenario)
    (df : list reading) (r : station_result) :
  In r (fst (predict_run predict s df)) ->
  0 <= predict (spec_projected_row s (mean_features (station_rows df (stasiun r)))) ->
  base_pred predict (X_future s (mean_features (station_rows df (stasiun r))))
    = repeat (predict (spec_projected_row s (mean_features (station_rows df (stasiun r))))) 6 /\
  nonincreasing (predictions r).
Proof.
  intros Hin Hb. apply predict_run_result in Hin.
  split; [rewrite X_future_repeat; reflexivity|].
  rewrite Hin. unfold forecast_station, adjusted_pred, base_pred.
  cbn [predictions]. rewrite X_future_repeat.
  set (b := predict (spec_projected_row s (mean_features (station_rows df (stasiun r))))) in *.
  simpl. repeat split; apply Qmult_le_compat_nonneg;
    split; first [exact Hb | apply Qle_refl | apply Qle_bool_iff; vm_compute; reflexivity].
Qed.

Lemma damped_trajectory_nonincreasing_witness :
  In (forecast_station toy_model (mkScenario 30 40 25 20) "DKI1 (Bunderan HI)"
        (station_rows toy_table "DKI1 (Bunderan HI)"))
     (fst (predict_run toy_model (mkScenario 30 40 25 20) toy_table)) /\
  0 <= toy_model (spec_projected_row (mkScenario 30 40 25 20)
                   (mean_features (station_rows toy_table "DKI1 (Bunderan HI)"))) /\
  nonincreasing (predictions (forecast_station toy_model (mkScenario 30 40 25 20)
     "DKI1 (Bunderan HI)" (station_rows toy_table "DKI1 (Bunderan HI)"))).
Proof.
  assert (Hin : In (forecast_station toy_model (mkScenario 30 40 25 20) "DKI1 (Bunderan HI)"
        (station_rows toy_table "DKI1 (Bunderan HI)"))
     (fst (predict_run toy_model (mkScenario 30 40 25 20) toy_table))).
  { rewrite predict_run_spec. left. reflexivity. }
  assert (Hb : 0 <= toy_model (spec_projected_row (mkScenario 30 40 25 20)
                   (mean_features (station_rows toy_table "DKI1 (Bunderan HI)")))).
  { apply Qle_bool_iff. vm_compute. reflexivity. }
  split; [exact Hin|]. split; [exact Hb|].
  exact (proj2 (damped_trajectory_nonincreasing toy_model (mkScenario 30 40 25 20)
                  toy_table _ Hin Hb)).
Defined.

(** * Further properties of the pipeline and of its display *)

(** ** Lemmas on stations and coordinates *)

Lemma unique_In (l : list string) (x : string) : In x (unique l) <-> In x l.
Proof.
  split; [apply unique_incl|].
  induction l as [|a l IH]; simpl; [tauto|].
  intros [H|H]; [left; exact H|].
  destruct (String.eqb a x) eqn:E.
  - left. apply String.eqb_eq. exact E.
  - right. apply filter_In. split; [apply IH, H|]. rewrite E. reflexivity.
Qed.

Lemma unique_NoDup (l : list string) : NoDup (unique l).
Proof.
  induction l as [|a l IH]; simpl; constructor.
  - rewrite filter_In. intros [_ H]. rewrite String.eqb_refl in H. discriminate.
  - apply NoDup_filter, IH.
Qed.

Lemma station_rows_nonempty_iff (df : list reading) (st : string) :
  station_rows df st <> [] <-> In st (map stasiun_of df).
Proof.
  split; [|apply station_rows_nonempty].
  unfold station_rows. intros Hne.
  destruct (filter (fun r => String.eqb (stasiun_of r) st) df) as [|x l] eqn:E;
    [contradiction Hne; reflexivity|].
  assert (Hx : In x (filter (fun r => String.eqb (stasiun_of r) st) df))
    by (rewrite E; left; reflexivity).
  apply filter_In in Hx as [Hx Heq]. apply String.eqb_eq in Heq.
  apply in_map_iff. exists x. split; assumption.
Qed.

Lemma coords_get_registered (st : string) (ll : Q * Q) :
  In (st, ll) station_coords -> coords_get st = ll.
Proof.
  simpl. intros H.
  repeat (destruct H as [H|H]; [injection H as <- <-; reflexivity|]).
  destruct H.
Qed.

Lemma coords_get_unregistered (st : string) :
  ~ In st (map fst station_coords) -> coords_get st = (-62 # 10, 1068 # 10).
Proof.
  intros Hn. unfold coords_get.
  destruct (find (fun e => String.eqb (fst e) st) station_coords) as [[k ll]|] eqn:E;
    [|reflexivity].
  apply find_some in E as [Hin Heq]. apply String.eqb_eq in Heq. simpl in Heq. subst k.
  exfalso. apply Hn. apply in_map_iff. exists (st, ll). split; [reflexivity | exact Hin].
Qed.

Lemma station_rows_app_other (df extra : list reading) (st : string) :
  (forall x, In x extra -> stasiun_of x <> st) ->
  station_rows (df ++ extra) st = station_rows df st.
Proof.
  intros Hx. unfold station_rows. rewrite filter_app, map_app.
  replace (filter (fun r => String.eqb (stasiun_of r) st) extra) with (@nil reading);
    [apply app_nil_r|].
  induction extra as [|x extra IH]; simpl; [reflexivity|].
  destruct (String.eqb (stasiun_of x) st) eqn:E.
  - apply String.eqb_eq in E. exfalso. apply (Hx x); [left; reflexivity | exact E].
  - apply IH. intros y Hy. apply Hx. right. exact Hy.
Qed.


(** ** Stations of a run *)

(** The results list each station at most once, and a station is in the
    results exactly when the table holds at least one reading for it. *)
Theorem run_stations_distinct_complete (predict : features -> Q) (s : scenario)
    (df : list reading) (st : string) :
  NoDup (map stasiun (fst (predict_run predict s df))) /\
  (In st (map stasiun (fst (predict_run predict s df))) <-> station_rows df st <> []).
Proof.
  rewrite predict_run_stations. split; [apply unique_NoDup|].
  rewrite unique_In, station_rows_nonempty_iff. reflexivity.
Qed.

(** A result is placed at the registered coordinates of its station, and at
    the default [(-6.2, 106.8)] when the station is not registered. *)
Theorem run_result_coordinates (predict : features -> Q) (s : scenario)
    (df : list reading) (r : station_result) :
  In r (fst (predict_run predict s df)) ->
  (forall ll, In (stasiun r, ll) station_coords -> (latitude r, longitude r) = ll) /\
  (~ In (stasiun r) (map fst station_coords) ->
   (latitude r, longitude r) = (-62 # 10, 1068 # 10)).
Proof.
  intros Hin. apply predict_run_result in Hin. rewrite Hin. simpl.
  rewrite <- surjective_pairing. split.
  - apply coords_get_registered.
  - apply coords_get_unregistered.
Qed.

Lemma run_result_coordinates_witness :
  In (forecast_station toy_model (mkScenario 30 40 25 20) "DKI3 (Jagakarsa)"
        (station_rows toy_table "DKI3 (Jagakarsa)"))
     (fst (predict_run toy_model (mkScenario 30 40 25 20) toy_table)) /\
  ((forall ll, In ("DKI3 (Jagakarsa)"%string, ll) station_coords ->
      (-6338 # 1000, 106823 # 1000) = ll) /\
   (~ In "DKI3 (Jagakarsa)"%string (map fst station_coords) ->
      (-6338 # 1000, 106823 # 1000) = (-62 # 10, 1068 # 10))).
Proof.
  assert (Hin : In (forecast_station toy_model (mkScenario 30 40 25 20) "DKI3 (Jagakarsa)"
        (station_rows toy_table "DKI3 (Jagakarsa)"))
     (fst (predict_run toy_model (mkScenario 30 40 25 20) toy_table))).
  { rewrite predict_run_spec. right. left. reflexivity. }
  split; [exact Hin|].
  exact (run_result_coordinates toy_model (mkScenario 30 40 25 20) toy_table _ Hin).
Defined.

(** Isolation: appending readings of other stations to the table leaves a
    station's result unchanged; it is still among the results. *)
Theorem run_result_stable_under_other_readings (predict : features -> Q) (s : scenario)
    (df extra : list reading) (r : station_result) :
  In r (fst (predict_run predict s df)) ->
  (forall x, In x extra -> stasiun_of x <> stasiun r) ->
  In r (fst (predict_run predict s (df ++ extra))).
Proof.
  intros Hin Hx.
  assert (Hst : In (stasiun r) (unique (map stasiun_of df))).
  { rewrite <- (predict_run_stations predict s df). apply in_map, Hin. }
  apply predict_run_result in Hin.
  rewrite predict_run_spec. simpl. apply in_map_iff.
  exists (stasiun r). split.
  - rewrite station_rows_app_other by exact Hx. symmetry. exact Hin.
  - apply unique_In. rewrite map_app. apply in_or_app. left. apply unique_In, Hst.
Qed.

Lemma run_result_stable_under_other_readings_witness :
  In (forecast_station toy_model (mkScenario 30 40 25 20) "DKI3 (Jagakarsa)"
        (station_rows toy_table "DKI3 (Jagakarsa)"))
     (fst (predict_run toy_model (mkScenario 30 40 25 20) toy_table)) /\
  (forall x, In x [mkReading "DKI5 (Kebon Jeruk)" (mkFeatures 70 60 15 8 30 40)] ->
     stasiun_of x <> "DKI3 (Jagakarsa)"%string) /\
  In (forecast_station toy_model (mkScenario 30 40 25 20) "DKI3 (Jagakarsa)"
        (station_rows toy_table "DKI3 (Jagakarsa)"))
     (fst (predict_run toy_model (mkScenario 30 40 25 20)
        (toy_table ++ [mkReading "DKI5 (Kebon Jeruk)" (mkFeatures 70 60 15 8 30 40)]))).
Proof.
  assert (Hin : In (forecast_station toy_model (mkScenario 30 40 25 20) "DKI3 (Jagakarsa)"
        (station_rows toy_table "DKI3 (Jagakarsa)"))
     (fst (predict_run toy_model (mkScenario 30 40 25 20) toy_table))).
  { rewrite predict_run_spec. right. left. reflexivity. }
  assert (Hx : forall x, In x [mkReading "DKI5 (Kebon Jeruk)" (mkFeatures 70 60 15 8 30 40)] ->
     stasiun_of x <> "DKI3 (Jagakarsa)"%string).
  { intros x [<-|[]]. discriminate. }
  split; [exact Hin|]. split; [exact Hx|].
  exact (run_result_stable_under_other_readings toy_model (mkScenario 30 40 25 20)
           toy_table _ _ Hin Hx).
Defined.

(** ** Trajectory and projection *)

Lemma adjusted_pred_repeat (b : Q) :
  adjusted_pred (repeat b 6) = map (fun d => b * d) damping.
Proof. reflexivity. Qed.

Lemma damping_values :
  damping = [500 # 500; 485 # 500; 470 # 500; 455 # 500; 440 # 500; 85 # 100].
Proof. vm_compute. reflexivity. Qed.

Lemma Qmult_le_self (x m : Q) : 0 <= x -> m <= 1 -> x * m <= x.
Proof.
  intros Hx Hm. assert (H : 0 <= x * (1 - m)) by (apply Qmult_le_0_compat; lra). lra.
Qed.

Lemma Qmult_le_mono (x m m' : Q) : 0 <= x -> m' <= m -> x * m' <= x * m.
Proof.
  intros Hx Hm. assert (H : 0 <= x * (m - m')) by (apply Qmult_le_0_compat; lra). lra.
Qed.

Lemma Zle_0_Q (z : Z) : (0 <= z)%Z -> 0 <= inject_Z z.
Proof. intros H. change 0 with (inject_Z 0). rewrite <- Zle_Qle. exact H. Qed.

Lemma mean_features_nonneg (rows : list features) :
  Forall nonneg_features rows -> nonneg_features (mean_features rows).
Proof.
  intros Hall.
  assert (Hs : nonneg_features (sum_features rows)).
  { induction Hall as [|x l Hx _ IH]; simpl.
    - unfold nonneg_features; simpl; repeat split; apply Qle_refl.
    - destruct Hx as [? [? [? [? [? ?]]]]]. destruct IH as [? [? [? [? [? ?]]]]].
      unfold nonneg_features; simpl; repeat split; lra. }
  assert (Hn : 0 <= / inject_Z (Z.of_nat (List.length rows)))
    by (apply Qinv_le_0_compat, Zle_0_Q, Nat2Z.is_nonneg).
  destruct Hs as [? [? [? [? [? ?]]]]].
  unfold mean_features, nonneg_features, Qdiv; simpl.
  repeat split; apply Qmult_le_0_compat; assumption.
Qed.

Lemma projected_rows_nonneg (s : scenario) (mean : features) :
  valid_scenario s = true -> (emission_reg s + ev_switch s <= 180)%Z ->
  nonneg_features mean -> Forall nonneg_features (X_future s mean).
Proof.
  intros Hv Hs Hm. apply valid_scenario_bounds in Hv.
  destruct s as [ev reg ga cc]; cbn [ev_switch emission_reg green_area carbon_capture] in Hv, Hs.
  destruct Hv as [Hev [Hreg [Hga Hcc]]].
  rewrite Zle_Qle in Hs. change (inject_Z 180) with 180 in Hs.
  rewrite X_future_repeat. apply Forall_forall.
  intros r Hr. apply repeat_spec in Hr. subst r.
  destruct Hm as [H1 [H2 [H3 [H4 [H5 H6]]]]].
  unfold nonneg_features, spec_projected_row;
    cbn [ev_switch emission_reg green_area carbon_capture pm25 pm10 so2 co o3 no2].
  repeat split; apply Qmult_le_0_compat; try assumption; qlin.
Qed.

(** The six points of every result are the one raw prediction [b] of the
    station's projected row times [1, 0.97, 0.94, 0.91, 0.88, 0.85], and its
    [avg_aqi] is [0.925 * b]. *)
Theorem run_trajectory_closed_form (predict : features -> Q) (s : scenario)
    (df : list reading) (r : station_result) :
  In r (fst (predict_run predict s df)) ->
  let b := predict (spec_projected_row s (mean_features (station_rows df (stasiun r)))) in
  Forall2 Qeq (predictions r)
    [b; (97 # 100) * b; (94 # 100) * b; (91 # 100) * b; (88 # 100) * b; (85 # 100) * b] /\
  avg_aqi r == (37 # 40) * b.
Proof.
  intros Hin. apply predict_run_result in Hin. rewrite Hin. cbv zeta.
  unfold forecast_station. cbn [predictions avg_aqi stasiun].
  rewrite X_future_repeat.
  set (b := predict (spec_projected_row s (mean_features (station_rows df (stasiun r))))).
  replace (base_pred predict (repeat (spec_projected_row s
             (mean_features (station_rows df (stasiun r)))) 6)) with (repeat b 6)
    by reflexivity.
  rewrite adjusted_pred_repeat, damping_values. cbn [map].
  split.
  - repeat constructor; simpl; ring.
  - unfold np_mean. simpl. unfold inject_Z. field.
Qed.

Lemma run_trajectory_closed_form_witness :
  In (forecast_station toy_model (mkScenario 30 40 25 20) "DKI1 (Bunderan HI)"
        (station_rows toy_table "DKI1 (Bunderan HI)"))
     (fst (predict_run toy_model (mkScenario 30 40 25 20) toy_table)) /\
  avg_aqi (forecast_station toy_model (mkScenario 30 40 25 20) "DKI1 (Bunderan HI)"
        (station_rows toy_table "DKI1 (Bunderan HI)"))
  == (37 # 40) * toy_model (spec_projected_row (mkScenario 30 40 25 20)
        (mean_features (station_rows toy_table "DKI1 (Bunderan HI)"))).
Proof.
  assert (Hin : In (forecast_station toy_model (mkScenario 30 40 25 20) "DKI1 (Bunderan HI)"
        (station_rows toy_table "DKI1 (Bunderan HI)"))
     (fst (predict_run toy_model (mkScenario 30 40 25 20) toy_table))).
  { rewrite predict_run_spec. left. reflexivity. }
  split; [exact Hin|].
  exact (proj2 (run_trajectory_closed_form toy_model (mkScenario 30 40 25 20) toy_table _ Hin)).
Defined.

(** With non-negative scenario parameters no multiplier exceeds 1, so the
    projection never raises a pollutant above the station mean. *)
Theorem projection_never_raises (s : scenario) (mean : features) :
  (0 <= ev_switch s)%Z -> (0 <= emission_reg s)%Z ->
  (0 <= green_area s)%Z -> (0 <= carbon_capture s)%Z ->
  mult_pm25 s <= 1 /\ mult_pm10 s <= 1 /\ mult_co s <= 1 /\
  mult_no2 s <= 1 /\ mult_so2 s <= 1 /\ mult_o3 s <= 1 /\
  (nonneg_features mean -> Forall (fun row => features_le row mean) (X_future s mean)).
Proof.
  intros Hev Hreg Hga Hcc.
  apply Zle_0_Q in Hev, Hreg, Hga, Hcc.
  assert (Hm : mult_pm25 s <= 1 /\ mult_pm10 s <= 1 /\ mult_co s <= 1 /\
               mult_no2 s <= 1 /\ mult_so2 s <= 1 /\ mult_o3 s <= 1).
  { unfold mult_pm25, mult_pm10, mult_co, mult_no2, mult_so2, mult_o3.
    rewrite !inject_Z_plus. unfold Qdiv. rewrite !Qinv_pos.
    repeat split; lra. }
  split; [exact (proj1 Hm)|]. do 5 (split; [apply Hm|]).
  destruct Hm as [M1 [M2 [M3 [M4 [M5 M6]]]]].
  intros [H1 [H2 [H3 [H4 [H5 H6]]]]].
  rewrite X_future_repeat. apply Forall_forall.
  intros row Hr. apply repeat_spec in Hr. subst row.
  unfold features_le, spec_projected_row.
  cbn [pm25 pm10 so2 co o3 no2].
  repeat split; apply Qmult_le_self; assumption.
Qed.

Lemma projection_never_raises_witness :
  (0 <= 30)%Z /\ (0 <= 40)%Z /\ (0 <= 25)%Z /\ (0 <= 20)%Z /\
  Forall (fun row => features_le row (mkFeatures 50 40 10 5 20 30))
    (X_future (mkScenario 30 40 25 20) (mkFeatures 50 40 10 5 20 30)).
Proof.
  assert (Hm : nonneg_features (mkFeatures 50 40 10 5 20 30))
    by (unfold nonneg_features; simpl; repeat split; lra).
  do 4 (split; [lia|]).
  refine (proj2 (proj2 (proj2 (proj2 (proj2 (proj2
    (projection_never_raises (mkScenario 30 40 25 20) (mkFeatures 50 40 10 5 20 30)
       _ _ _ _)))))) Hm); simpl; lia.
Defined.

(** Raising any scenario parameter never raises a multiplier, so for a
    station with non-negative means a stronger scenario projects no higher
    pollutant values, year by year. *)
Theorem projection_antitone_in_scenario (s s' : scenario) (mean : features) :
  scenario_le s s' ->
  mult_pm25 s' <= mult_pm25 s /\ mult_pm10 s' <= mult_pm10 s /\
  mult_co s' <= mult_co s /\ mult_no2 s' <= mult_no2 s /\
  mult_so2 s' <= mult_so2 s /\ mult_o3 s' <= mult_o3 s /\
  (nonneg_features mean -> Forall2 features_le (X_future s' mean) (X_future s mean)).
Proof.
  intros [Hev [Hreg [Hga Hcc]]].
  rewrite Zle_Qle in Hev, Hreg, Hga, Hcc.
  assert (Hm : mult_pm25 s' <= mult_pm25 s /\ mult_pm10 s' <= mult_pm10 s /\
               mult_co s' <= mult_co s /\ mult_no2 s' <= mult_no2 s /\
               mult_so2 s' <= mult_so2 s /\ mult_o3 s' <= mult_o3 s).
  { unfold mult_pm25, mult_pm10, mult_co, mult_no2, mult_so2, mult_o3.
    rewrite !inject_Z_plus. unfold Qdiv. rewrite !Qinv_pos.
    repeat split; lra. }
  split; [exact (proj1 Hm)|]. do 5 (split; [apply Hm|]).
  destruct Hm as [M1 [M2 [M3 [M4 [M5 M6]]]]].
  intros [H1 [H2 [H3 [H4 [H5 H6]]]]].
  rewrite !X_future_repeat.
  assert (Hrow : features_le (spec_projected_row s' mean) (spec_projected_row s mean)).
  { unfold features_le, spec_projected_row. cbn [pm25 pm10 so2 co o3 no2].
    repeat split; apply Qmult_le_mono; assumption. }
  simpl. repeat (apply Forall2_cons; [exact Hrow|]). apply Forall2_nil.
Qed.

Lemma projection_antitone_in_scenario_witness :
  scenario_le (mkScenario 30 40 25 20) (mkScenario 60 40 25 20) /\
  Forall2 features_le (X_future (mkScenario 60 40 25 20) (mkFeatures 50 40 10 5 20 30))
                      (X_future (mkScenario 30 40 25 20) (mkFeatures 50 40 10 5 20 30)).
Proof.
  assert (Hle : scenario_le (mkScenario 30 40 25 20) (mkScenario 60 40 25 20))
    by (unfold scenario_le; simpl; lia).
  assert (Hm : nonneg_features (mkFeatures 50 40 10 5 20 30))
    by (unfold nonneg_features; simpl; repeat split; lra).
  split; [exact Hle|].
  exact (proj2 (proj2 (proj2 (proj2 (proj2 (proj2
    (projection_antitone_in_scenario _ _ (mkFeatures 50 40 10 5 20 30) Hle)))))) Hm).
Defined.

(** If every reading of the table is non-negative, the scenario is in range
    and [emission_reg + ev_switch <= 180], then every row fed to the model
    for any station is non-negative. *)
Theorem model_inputs_nonneg (s : scenario) (df : list reading) (st : string) :
  Forall (fun x => nonneg_features (values_of x)) df ->
  valid_scenario s = true -> (emission_reg s + ev_switch s <= 180)%Z ->
  Forall nonneg_features (X_future s (mean_features (station_rows df st))).
Proof.
  intros Hdf Hv Hs. apply projected_rows_nonneg; try assumption.
  apply mean_features_nonneg. unfold station_rows.
  apply Forall_map. apply Forall_forall. intros x Hx.
  apply filter_In in Hx as [Hx _].
  rewrite Forall_forall in Hdf. apply Hdf, Hx.
Qed.

Lemma model_inputs_nonneg_witness :
  Forall (fun x => nonneg_features (values_of x)) toy_table /\
  valid_scenario (mkScenario 30 40 25 20) = true /\ (40 + 30 <= 180)%Z /\
  Forall nonneg_features (X_future (mkScenario 30 40 25 20)
                           (mean_features (station_rows toy_table "DKI1 (Bunderan HI)"))).
Proof.
  assert (Hdf : Forall (fun x => nonneg_features (values_of x)) toy_table).
  { repeat constructor; simpl; lra. }
  split; [exact Hdf|]. split; [reflexivity|]. split; [lia|].
  apply (model_inputs_nonneg (mkScenario 30 40 25 20) toy_table); [exact Hdf | reflexivity | simpl; lia].
Defined.

(** ** Lemmas on the display *)

Lemma dict_set_absent (k : string) (v : list Q) (d : list (string * list Q)) :
  ~ In k (map fst d) -> dict_set k v d = d ++ [(k, v)].
Proof.
  induction d as [|[k' v'] d IH]; simpl; intros Hn; [reflexivity|].
  destruct (String.eqb k' k) eqn:E.
  - apply String.eqb_eq in E. exfalso. apply Hn. left. exact E.
  - rewrite IH by tauto. reflexivity.
Qed.

Lemma line_data_fold (l : list station_result) (d : list (string * list Q)) :
  NoDup (map fst d ++ map stasiun l) ->
  fold_left (fun d r => dict_set (stasiun r) (predictions r) d) l d
    = d ++ map (fun r => (stasiun r, predictions r)) l.
Proof.
  revert d. induction l as [|r l IH]; intros d Hnd; simpl; [symmetry; apply app_nil_r|].
  rewrite dict_set_absent.
  - rewrite IH.
    + rewrite <- app_assoc. reflexivity.
    + rewrite map_app, <- app_assoc. exact Hnd.
  - simpl in Hnd. apply NoDup_remove_2 in Hnd. intro H. apply Hnd, in_or_app. left. exact H.
Qed.

Lemma line_data_distinct (l : list station_result) :
  NoDup (map stasiun l) -> line_data l = map (fun r => (stasiun r, predictions r)) l.
Proof. intros H. unfold line_data. apply line_data_fold. exact H. Qed.

Lemma run_predictions_length (predict : features -> Q) (s : scenario) (df : list reading) :
  Forall (fun r => List.length (predictions r) = 6%nat) (fst (predict_run predict s df)).
Proof.
  apply Forall_forall. intros r Hin. apply predict_run_result in Hin. rewrite Hin.
  unfold forecast_station, adjusted_pred, base_pred. cbn [predictions].
  rewrite X_future_repeat. reflexivity.
Qed.

Lemma years_In (y : Z) : In y years <-> (2025 <= y <= 2030)%Z.
Proof.
  unfold years. simpl. split.
  - intros H. repeat (destruct H as [<-|H]; [lia|]). destruct H.
  - intros H. assert (Hc : y = 2025%Z \/ y = 2026%Z \/ y = 2027%Z \/ y = 2028%Z \/
                           y = 2029%Z \/ y = 2030%Z) by lia.
    repeat (destruct Hc as [->|Hc]; [auto 10|]). subst y. auto 10.
Qed.

Lemma year_loop_in (pressed : option Z) (l : list Z) (sel : Z) :
  incl l years -> In sel years ->
  In (fold_left (fun sel year =>
        match pressed with
        | Some p => if Z.eqb year p then year else sel
        | None => sel
        end) l sel) years.
Proof.
  revert sel. induction l as [|y l IH]; intros sel Hl Hs; simpl; [exact Hs|].
  apply IH; [intros x Hx; apply Hl; right; exact Hx|].
  destruct pressed as [p|]; [destruct (Z.eqb y p)|]; try exact Hs.
  apply Hl. left. reflexivity.
Qed.

Lemma selected_after_in (clicks : list (option Z)) : In (selected_after clicks) years.
Proof.
  unfold selected_after.
  assert (H : forall sel, In sel years -> In (fold_left year_buttons clicks sel) years).
  { induction clicks as [|c cs IH]; intros sel Hs; simpl; [exact Hs|].
    apply IH. unfold year_buttons. apply year_loop_in; [apply incl_refl | exact Hs]. }
  apply H. left. reflexivity.
Qed.

Lemma map_markers_total (results : list station_result) (sel : Z) :
  (0 <= sel - 2025 < 6)%Z ->
  Forall (fun r => List.length (predictions r) = 6%nat) results ->
  exists ms, map_markers results sel = Some ms /\
    Forall2 (fun r m => m_station m = stasiun r /\ m_lat m = latitude r /\
               m_lon m = longitude r /\
               nth_error (predictions r) (Z.to_nat (sel - 2025)) = Some (m_aqi m) /\
               m_color m = classify (m_aqi m)) results ms.
Proof.
  intros Hb Hall. induction Hall as [|r l Hr _ IH].
  - exists []. split; [reflexivity | constructor].
  - destruct IH as [ms [Hms Hf]].
    destruct (nth_error (predictions r) (Z.to_nat (sel - 2025))) as [a|] eqn:E.
    + exists (mkMarker (latitude r) (longitude r) (stasiun r) a (classify a) :: ms).
      split.
      * unfold map_markers in *. simpl. rewrite Hms. unfold py_index.
        replace ((0 <=? sel - 2025)%Z) with true by (symmetry; apply Z.leb_le; lia).
        rewrite E. reflexivity.
      * constructor; [simpl; repeat split; exact E | exact Hf].
    + exfalso. apply nth_error_None in E. lia.
Qed.

Lemma classify_rank_mono (x y : Q) :
  x <= y -> (color_rank (classify x) <= color_rank (classify y))%nat.
Proof.
  intros Hxy. unfold classify.
  qltb_cases x 50 E1; qltb_cases x 100 E2; qltb_cases y 50 E3; qltb_cases y 100 E4;
  simpl; try lia; exfalso; lra.
Qed.

Lemma run_predictions_values (predict : features -> Q) (s : scenario) (df : list reading)
    (r : station_result) :
  In r (fst (predict_run predict s df)) ->
  predictions r = map (fun d => predict (spec_projected_row s
                     (mean_features (station_rows df (stasiun r)))) * d) damping.
Proof.
  intros Hin. apply predict_run_result in Hin. rewrite Hin.
  unfold forecast_station. cbn [predictions stasiun].
  rewrite X_future_repeat. apply adjusted_pred_repeat.
Qed.

Lemma flat_map_rows_length (l : list station_result) :
  Forall (fun r => List.length (predictions r) = 6%nat) l ->
  List.length (flat_map (fun r => map (fun ya => (fst ya, stasiun r, snd ya))
                                      (combine chart_index (predictions r))) l)
  = (6 * List.length l)%nat.
Proof.
  induction 1 as [|r l Hr _ IH]; [reflexivity|].
  cbn [flat_map]. rewrite length_app, IH, length_map, length_combine, Hr.
  simpl. lia.
Qed.

(** ** Display *)

(** The line chart of a run has, for each result in order, the six rows
    [(2025 + i, station, i-th point)], so [6 * n] rows for [n] results; the
    frame construction never fails. *)
Theorem line_chart_of_run (predict : features -> Q) (s : scenario) (df : list reading) :
  exists rows,
    line_chart_rows (fst (predict_run predict s df)) = Some rows /\
    rows = flat_map (fun r => map (fun ya => (fst ya, stasiun r, snd ya))
                                  (combine chart_index (predictions r)))
                    (fst (predict_run predict s df)) /\
    List.length rows = (6 * List.length (fst (predict_run predict s df)))%nat.
Proof.
  pose proof (run_predictions_length predict s df) as Hlen.
  assert (Hnd : NoDup (map stasiun (fst (predict_run predict s df)))).
  { rewrite predict_run_stations. apply unique_NoDup. }
  set (res := fst (predict_run predict s df)) in *.
  eexists. split; [|split; [reflexivity | apply flat_map_rows_length, Hlen]].
  unfold line_chart_rows. rewrite line_data_distinct by exact Hnd.
  replace (forallb _ _) with true.
  - f_equal. rewrite !flat_map_concat_map, map_map. reflexivity.
  - symmetry. apply forallb_forall. intros e He.
    apply in_map_iff in He as [r [<- Hr]]. rewrite Forall_forall in Hlen.
    simpl. rewrite Hlen by exact Hr. reflexivity.
Qed.

(** Whatever year buttons are clicked after a prediction, the selected year
    stays in 2025..2030 and the map draws one marker per result, with no
    [IndexError]: at the station's coordinates, with the point of the
    selected year and the colour [classify] gives it. *)
Theorem map_after_year_clicks (predict : features -> Q) (s : scenario) (df : list reading)
    (clicks : list (option Z)) :
  (2025 <= selected_after clicks <= 2030)%Z /\
  exists ms,
    map_markers (fst (predict_run predict s df)) (selected_after clicks) = Some ms /\
    Forall2 (fun r m => m_station m = stasiun r /\ m_lat m = latitude r /\
               m_lon m = longitude r /\
               nth_error (predictions r) (Z.to_nat (selected_after clicks - 2025))
                 = Some (m_aqi m) /\
               m_color m = classify (m_aqi m))
            (fst (predict_run predict s df)) ms.
Proof.
  pose proof (selected_after_in clicks) as Hin. apply years_In in Hin.
  split; [exact Hin|].
  apply map_markers_total; [lia | apply run_predictions_length].
Qed.

(** A higher AQI value never gets a less severe marker colour. *)
Theorem classify_monotone (x y : Q) :
  x <= y -> (color_rank (classify x) <= color_rank (classify y))%nat.
Proof. apply classify_rank_mono. Qed.

Lemma classify_monotone_witness :
  (49 # 1) <= 100 /\ (color_rank (classify 49) <= color_rank (classify 100))%nat.
Proof.
  assert (H : (49 # 1) <= 100) by lra.
  split; [exact H | exact (classify_monotone 49 100 H)].
Defined.

(** For a station whose raw prediction is non-negative, moving the selected
    year forward never makes its map marker colour more severe. *)
Theorem map_colour_never_worsens (predict : features -> Q) (s : scenario)
    (df : list reading) (r : station_result) (y1 y2 : Z) :
  In r (fst (predict_run predict s df)) ->
  0 <= predict (spec_projected_row s (mean_features (station_rows df (stasiun r)))) ->
  (2025 <= y1)%Z -> (y1 <= y2)%Z -> (y2 <= 2030)%Z ->
  (color_rank (classify (nth (Z.to_nat (y2 - 2025)) (predictions r) 0%Q))
   <= color_rank (classify (nth (Z.to_nat (y1 - 2025)) (predictions r) 0%Q)))%nat.
Proof.
  intros Hin Hb H1 H12 H2.
  rewrite (run_predictions_values predict s df r Hin), damping_values.
  set (b := predict (spec_projected_row s (mean_features (station_rows df (stasiun r))))) in *.
  apply classify_rank_mono.
  assert (C1 : y1 = 2025%Z \/ y1 = 2026%Z \/ y1 = 2027%Z \/ y1 = 2028%Z \/
               y1 = 2029%Z \/ y1 = 2030%Z) by lia.
  assert (C2 : y2 = 2025%Z \/ y2 = 2026%Z \/ y2 = 2027%Z \/ y2 = 2028%Z \/
               y2 = 2029%Z \/ y2 = 2030%Z) by lia.
  destruct C1 as [ -> | [ -> | [ -> | [ -> | [ -> | -> ]]]]];
  destruct C2 as [ -> | [ -> | [ -> | [ -> | [ -> | -> ]]]]];
  simpl; first [exfalso; lia | apply Qmult_le_mono; [exact Hb | lra]].
Qed.

Lemma map_colour_never_worsens_witness :
  In (forecast_station toy_model (mkScenario 30 40 25 20) "DKI1 (Bunderan HI)"
        (station_rows toy_table "DKI1 (Bunderan HI)"))
     (fst (predict_run toy_model (mkScenario 30 40 25 20) toy_table)) /\
  0 <= toy_model (spec_projected_row (mkScenario 30 40 25 20)
                   (mean_features (station_rows toy_table "DKI1 (Bunderan HI)"))) /\
  (color_rank (classify (nth 5 (predictions (forecast_station toy_model (mkScenario 30 40 25 20)
      "DKI1 (Bunderan HI)" (station_rows toy_table "DKI1 (Bunderan HI)"))) 0%Q))
   <= color_rank (classify (nth 0 (predictions (forecast_station toy_model
      (mkScenario 30 40 25 20) "DKI1 (Bunderan HI)"
      (station_rows toy_table "DKI1 (Bunderan HI)"))) 0%Q)))%nat.
Proof.
  assert (Hin : In (forecast_station toy_model (mkScenario 30 40 25 20) "DKI1 (Bunderan HI)"
        (station_rows toy_table "DKI1 (Bunderan HI)"))
     (fst (predict_run toy_model (mkScenario 30 40 25 20) toy_table))).
  { rewrite predict_run_spec. left. reflexivity. }
  assert (Hb : 0 <= toy_model (spec_projected_row (mkScenario 30 40 25 20)
                   (mean_features (station_rows toy_table "DKI1 (Bunderan HI)")))).
  { apply Qle_bool_iff. vm_compute. reflexivity. }
  split; [exact Hin|]. split; [exact Hb|].
  exact (map_colour_never_worsens toy_model (mkScenario 30 40 25 20) toy_table _ 2025 2030
           Hin Hb ltac:(lia) ltac:(lia) ltac:(lia)).
Defined.
